(** * The activation workflow of [main.py]: sequencer and recovery dispatcher

    A shallow embedding of [ActivationWorker] (src/main.py).  The worker is a
    mutable object whose methods either return ([self] or, in one place,
    [None]) or raise one of the typed failures; [_LOGGER.info] and
    [time.sleep] are its only other effects.  Methods are embedded as
    computations in a state-and-exception monad over the worker's fields and
    the list of effects performed so far. *)

From Stdlib Require Import ZArith Bool.
From stdpp Require Import base decidable list strings gmap.

Local Open Scope string_scope.
Local Open Scope list_scope.

(** ** Data model *)

(** [class ChangeState(enum.IntEnum)] *)
Inductive ChangeState : Type :=
  | NEW | ASSESS | SCHEDULED | IMPLEMENT | CLOSED | CANCELLED.

(** [class ActivationState(enum.IntEnum)] *)
Inductive ActivationState : Type :=
  | NOT_STARTED | CHECK_MODULE | PRE_CHECK | START_ACTIVATION
  | ACTIVATION_COMPLETED.

(** The members are numbered by [enum.auto()], from 1 in declaration order. *)
Definition ChangeState_value (c : ChangeState) : Z :=
  match c with
  | NEW => 1 | ASSESS => 2 | SCHEDULED => 3
  | IMPLEMENT => 4 | CLOSED => 5 | CANCELLED => 6
  end%Z.

Definition ActivationState_value (a : ActivationState) : Z :=
  match a with
  | NOT_STARTED => 1 | CHECK_MODULE => 2 | PRE_CHECK => 3
  | START_ACTIVATION => 4 | ACTIVATION_COMPLETED => 5
  end%Z.

#[global] Instance ChangeState_eq_dec : EqDecision ChangeState.
Proof. solve_decision. Defined.

#[global] Instance ActivationState_eq_dec : EqDecision ActivationState.
Proof. solve_decision. Defined.

(** [@dataclasses.dataclass class Device] *)
Record Device : Type := mkDevice {
  hostname : string;
  ci_item_name : string;
}.

#[global] Instance Device_eq_dec : EqDecision Device.
Proof. solve_decision. Defined.

(** Modelled from the spec: the module [composition_test.exceptions], which
    [main.py] imports its nine failure classes from, is not among the
    sources.  The spec (sections 3 and 7) describes them as a closed set of
    kinds, one per failure-capable action, carrying no payload; they are
    taken here as nine unrelated classes.  [AttributeError] is Python's
    builtin, raised by an attribute lookup on [None]. *)
Inductive exn : Type :=
  | GetDeviceError
  | CheckModuleError
  | ImplementChangeError
  | PreCheckError
  | ActivationError
  | CloseChangeError
  | CancelChangeError
  | UploadArtifactsError
  | CreateIncidentError
  | AttributeError.

#[global] Instance exn_eq_dec : EqDecision exn.
Proof. solve_decision. Defined.

(** [isinstance(error, cls)] for an instance [error] of one of the classes
    above: with no subclassing among them it is class equality. *)
Definition isinstance (error cls : exn) : bool := bool_decide (error = cls).

(** The closed taxonomy of section 7 of the spec. *)
Definition in_taxonomy (e : exn) : bool :=
  match e with
  | AttributeError => false
  | _ => true
  end.

(** [ActivationWorker]'s attributes, as [__init__] declares them. *)
Record ActivationWorker : Type := mkWorker {
  esp_instance : string;
  cr_number : string;
  change_state : ChangeState;
  activation_state : ActivationState;
  device : option Device;
}.

Definition set_change_state (c : ChangeState) (w : ActivationWorker) :=
  mkWorker (esp_instance w) (cr_number w) c (activation_state w) (device w).

Definition set_activation_state (a : ActivationState) (w : ActivationWorker) :=
  mkWorker (esp_instance w) (cr_number w) (change_state w) a (device w).

Definition set_device (d : option Device) (w : ActivationWorker) :=
  mkWorker (esp_instance w) (cr_number w) (change_state w)
           (activation_state w) d.

(** [ActivationWorker.__init__] *)
Definition init (esp cr : string) : ActivationWorker :=
  {| esp_instance := esp;
     cr_number := cr;
     change_state := SCHEDULED;
     activation_state := NOT_STARTED;
     device := None |}.

(** ** Fault injection flags *)

(** The nine module constants [_ERROR_ON_...]; each is only ever used as the
    condition of an [if], so a flag is kept as its truth value. *)
Record Flags : Type := mkFlags {
  _ERROR_ON_GET_DEVICE : bool;
  _ERROR_ON_CHECK_MODULE : bool;
  _ERROR_ON_IMPLEMENT_CHANGE : bool;
  _ERROR_ON_PRE_CHECKS : bool;
  _ERROR_ON_ACTIVATION : bool;
  _ERROR_ON_CLOSE_CHANGE : bool;
  _ERROR_ON_UPLOAD_ARTIFACTS : bool;
  _ERROR_ON_CREATE_INCIDENT : bool;
  _ERROR_ON_CANCEL_CHANGE : bool;
}.

(** Truth value of [os.environ.get(key, False)]: the default [False] when the
    variable is unset, and a string otherwise, which is true unless empty. *)
Definition environ_get (environ : gmap string string) (key : string) : bool :=
  match environ !! key with
  | Some v => negb (String.eqb v EmptyString)
  | None => false
  end.

Definition load_flags (environ : gmap string string) : Flags :=
  {| _ERROR_ON_GET_DEVICE := environ_get environ "ERROR_ON_GET_DEVICE";
     _ERROR_ON_CHECK_MODULE := environ_get environ "ERROR_ON_CHECK_MODULE";
     _ERROR_ON_IMPLEMENT_CHANGE :=
       environ_get environ "ERROR_ON_IMPLEMENT_CHANGE";
     _ERROR_ON_PRE_CHECKS := environ_get environ "ERROR_ON_PRE_CHECKS";
     _ERROR_ON_ACTIVATION := environ_get environ "ERROR_ON_ACTIVATION";
     _ERROR_ON_CLOSE_CHANGE := environ_get environ "ERROR_ON_CLOSE_CHANGE";
     _ERROR_ON_UPLOAD_ARTIFACTS :=
       environ_get environ "ERROR_ON_UPLOAD_ARTIFACTS";
     _ERROR_ON_CREATE_INCIDENT :=
       environ_get environ "ERROR_ON_CREATE_INCIDENT";
     _ERROR_ON_CANCEL_CHANGE := environ_get environ "ERROR_ON_CANCEL_CHANGE" |}.

Definition no_faults : Flags :=
  mkFlags false false false false false false false false false.

(** ** Effects *)

(** The argument of a log record. *)
Inductive log_arg : Type :=
  | ArgDevice (d : option Device)
  | ArgError (e : exn).

(** What the worker does besides updating its fields: [_LOGGER.info(msg,
    *args)] and [time.sleep(secs)]. *)
Inductive event : Type :=
  | Info (msg : string) (args : list log_arg)
  | Sleep (secs : Z).

#[global] Instance log_arg_eq_dec : EqDecision log_arg.
Proof. solve_decision. Defined.

#[global] Instance event_eq_dec : EqDecision event.
Proof. solve_decision. Defined.

(** The state a method runs in: the worker object and the effects so far,
    oldest first. *)
Record world : Type := mkWorld {
  worker : ActivationWorker;
  effects : list event;
}.

(** What a method call evaluates to.  [ActivationWorker]'s methods return
    the worker itself or, through a bare [return], [None]. *)
Inductive pyref : Type := PySelf | PyNone.

Inductive outcome (A : Type) : Type :=
  | Returned (a : A) (s : world)
  | Raised (e : exn) (s : world).

Arguments Returned {A} a s.
Arguments Raised {A} e s.

Definition final {A} (o : outcome A) : world :=
  match o with
  | Returned _ s => s
  | Raised _ s => s
  end.

Definition returns {A} (o : outcome A) : bool :=
  match o with
  | Returned _ _ => true
  | Raised _ _ => false
  end.

Definition M (A : Type) : Type := world -> outcome A.

#[global] Instance M_ret : MRet M := fun A (a : A) s => Returned a s.

#[global] Instance M_bind : MBind M := fun A B (k : A -> M B) (m : M A) s =>
  match m s with
  | Returned a s' => k a s'
  | Raised e s' => Raised e s'
  end.

Definition raise {A} (e : exn) : M A := fun s => Raised e s.

Definition emit (ev : event) : M unit :=
  fun s => Returned tt (mkWorld (worker s) (effects s ++ [ev])).

Definition update (f : ActivationWorker -> ActivationWorker) : M unit :=
  fun s => Returned tt (mkWorld (f (worker s)) (effects s)).

Definition read {A} (f : ActivationWorker -> A) : M A :=
  fun s => Returned (f (worker s)) s.

Definition info (msg : string) (args : list log_arg) : M unit :=
  emit (Info msg args).

Definition sleep (secs : Z) : M unit := emit (Sleep secs).

(** [try: body except classes as error: handler(error)] *)
Definition try_except {A} (body : M A) (classes : list exn)
    (handler : exn -> M A) : M A :=
  fun s =>
    match body s with
    | Returned a s' => Returned a s'
    | Raised e s' =>
        if existsb (isinstance e) classes then handler e s' else Raised e s'
    end.

(** [r.method(...)] for the value [r] of a previous call: looking a method
    up on [None] raises [AttributeError]. *)
Definition dot (r : pyref) (method : M pyref) : M pyref :=
  match r with
  | PySelf => method
  | PyNone => raise AttributeError
  end.

Notation "m '.>' method" := (m ≫= fun r => dot r method)
  (at level 50, left associativity).

(** ** The worker's methods *)

Section Methods.

(** The module constants read from the environment at import time. *)
Variable fl : Flags.

Definition get_device_info : M pyref :=
  if _ERROR_ON_GET_DEVICE fl then raise GetDeviceError else
  info "got device info." [] ;;
  update (set_device
            (Some (mkDevice "switch-1.cisco.com" "switch-1"))) ;;
  mret PySelf.

Definition check_module : M pyref :=
  if _ERROR_ON_CHECK_MODULE fl then raise CheckModuleError else
  info "ran check module." [] ;;
  update (set_activation_state CHECK_MODULE) ;;
  mret PySelf.

Definition implement_change : M pyref :=
  if _ERROR_ON_IMPLEMENT_CHANGE fl then raise ImplementChangeError else
  info "implemented change request." [] ;;
  update (set_change_state IMPLEMENT) ;;
  mret PySelf.

Definition activation_pre_checks : M pyref :=
  if _ERROR_ON_PRE_CHECKS fl then raise PreCheckError else
  d ← read device;
  info "ran pre checks on device: %s." [ArgDevice d] ;;
  update (set_activation_state PRE_CHECK) ;;
  mret PySelf.

Definition activate_device : M pyref :=
  update (set_activation_state START_ACTIVATION) ;;
  if _ERROR_ON_ACTIVATION fl then raise ActivationError else
  d ← read device;
  info "activated device: %s." [ArgDevice d] ;;
  update (set_activation_state ACTIVATION_COMPLETED) ;;
  mret PySelf.

Definition close_change : M pyref :=
  if _ERROR_ON_CLOSE_CHANGE fl then raise CloseChangeError else
  a ← read activation_state;
  if negb (bool_decide (a = ACTIVATION_COMPLETED)) then
    info "change closed unsuccessfully" [] ;;
    mret PyNone
  else
    update (set_change_state CLOSED) ;;
    info "change closed successfully" [] ;;
    mret PySelf.

Definition cancel_change : M pyref :=
  if _ERROR_ON_CANCEL_CHANGE fl then raise CancelChangeError else
  update (set_change_state CANCELLED) ;;
  info "change closed successfully" [] ;;
  mret PySelf.

Definition upload_artifacts : M pyref :=
  if _ERROR_ON_UPLOAD_ARTIFACTS fl then raise UploadArtifactsError else
  info "uploaded artifacts" [] ;;
  mret PySelf.

Definition create_service_offering_incident (error : exn) : M pyref :=
  if _ERROR_ON_CREATE_INCIDENT fl then raise CreateIncidentError else
  info "created incident for error: %r." [ArgError error] ;;
  mret PySelf.

Definition create_software_incident (error : exn) : M pyref :=
  info "created software incident for error: %r." [ArgError error] ;;
  mret PySelf.

Definition create_incident (error : exn) : M pyref :=
  if isinstance error ActivationError
  then create_service_offering_incident error
  else create_software_incident error.

(** [if cond: body], falling through when the condition is false. *)
Definition when_ (cond : bool) (body : M unit) : M unit :=
  if cond then body else mret tt.

Definition handle_error (error : exn) : M pyref :=
  if _ERROR_ON_CREATE_INCIDENT fl then raise CreateIncidentError else
  when_ (isinstance error GetDeviceError) (
    info "handling get device error" [] ;;
    c ← read change_state;
    if bool_decide (c = IMPLEMENT) then
      close_change .> upload_artifacts .> create_incident error ;; mret tt
    else
      cancel_change .> upload_artifacts .> create_incident error ;; mret tt
  ) ;;
  when_ (isinstance error CheckModuleError) (
    info "handling check module error" [] ;;
    c ← read change_state;
    if bool_decide (c = IMPLEMENT) then
      close_change .> upload_artifacts .> create_incident error ;; mret tt
    else
      cancel_change .> upload_artifacts .> create_incident error ;; mret tt
  ) ;;
  when_ (isinstance error PreCheckError) (
    info "handling pre check error" [] ;;
    close_change .> upload_artifacts .> create_incident error ;; mret tt
  ) ;;
  when_ (isinstance error ActivationError) (
    info "handling activation error" [] ;;
    close_change .> upload_artifacts .> create_incident error ;; mret tt
  ) ;;
  when_ (isinstance error CloseChangeError) (
    info "handling close change error" [] ;;
    sleep 3 ;;
    try_except (close_change .> upload_artifacts ;; mret tt)
      [CloseChangeError; UploadArtifactsError]
      (fun _ => create_incident error ;; mret tt)
  ) ;;
  when_ (isinstance error UploadArtifactsError) (
    info "handling upload artifact error" [] ;;
    sleep 3 ;;
    upload_artifacts ;; mret tt
  ) ;;
  mret PySelf.

(** The classes of [run_activation]'s [except] clause. *)
Definition run_activation_catches : list exn :=
  [GetDeviceError; CheckModuleError; ImplementChangeError; PreCheckError;
   ActivationError; CloseChangeError; CancelChangeError;
   UploadArtifactsError].

(** [for step in steps: step()] *)
Fixpoint for_each (steps : list (M pyref)) : M unit :=
  match steps with
  | [] => mret tt
  | step :: rest => step ;; for_each rest
  end.

Definition run_activation (steps : list (M pyref)) : M unit :=
  try_except (for_each steps) run_activation_catches
    (fun error => handle_error error ;; mret tt).

(** The list [main] passes to [run_activation]. *)
Definition main_steps : list (M pyref) :=
  [get_device_info; check_module; implement_change; activation_pre_checks;
   activate_device; close_change; upload_artifacts].

(** [main], on the worker it constructs. *)
Definition main : outcome unit :=
  run_activation main_steps (mkWorld (init "cisco" "CHG1234") []).

End Methods.

(** ** Observations on the effects *)

(** The two records that [create_service_offering_incident] and
    [create_software_incident] log: the only trace an incident leaves. *)
Definition service_offering_incident (error : exn) : event :=
  Info "created incident for error: %r." [ArgError error].

Definition software_incident (error : exn) : event :=
  Info "created software incident for error: %r." [ArgError error].

Definition is_incident (ev : event) : bool :=
  match ev with
  | Info msg _ =>
      bool_decide (msg = "created incident for error: %r.")
      || bool_decide (msg = "created software incident for error: %r.")
  | Sleep _ => false
  end.

Definition is_sleep (ev : event) : bool :=
  match ev with
  | Sleep _ => true
  | Info _ _ => false
  end.

Definition is_upload (ev : event) : bool :=
  bool_decide (ev = Info "uploaded artifacts" []).

Definition incidents (l : list event) : list event := List.filter is_incident l.
Definition sleeps (l : list event) : list event := List.filter is_sleep l.
Definition uploads (l : list event) : list event := List.filter is_upload l.

(** The world after further effects. *)
Definition after (s : world) (evs : list event) : world :=
  mkWorld (worker s) (effects s ++ evs).

(** ** The steps a sequence is made of *)

(** The eight step actions of the worker, by name. *)
Inductive step_name : Type :=
  | GetDeviceInfo | CheckModule | ImplementChange | ActivationPreChecks
  | ActivateDevice | CloseChange | CancelChange | UploadArtifacts.

(** The bound method [worker.<name>]. *)
Definition bound_method (fl : Flags) (n : step_name) : M pyref :=
  match n with
  | GetDeviceInfo => get_device_info fl
  | CheckModule => check_module fl
  | ImplementChange => implement_change fl
  | ActivationPreChecks => activation_pre_checks fl
  | ActivateDevice => activate_device fl
  | CloseChange => close_change fl
  | CancelChange => cancel_change fl
  | UploadArtifacts => upload_artifacts fl
  end.

(** Step actions and recovery actions: the steps, and incident creation. *)
Inductive action : Type :=
  | Step (n : step_name)
  | CreateIncident (error : exn)
  | CreateServiceOfferingIncident (error : exn)
  | CreateSoftwareIncident (error : exn).

Definition perform (fl : Flags) (a : action) : M pyref :=
  match a with
  | Step n => bound_method fl n
  | CreateIncident error => create_incident fl error
  | CreateServiceOfferingIncident error =>
      create_service_offering_incident fl error
  | CreateSoftwareIncident error => create_software_incident error
  end.

(** A prefix of a sequence ran to completion: every step returned, each
    starting in the world its predecessor left. *)
Inductive runs_to : list (M pyref) -> world -> world -> Prop :=
  | runs_to_nil s : runs_to [] s s
  | runs_to_cons step rest r s s1 s2 :
      step s = Returned r s1 ->
      runs_to rest s1 s2 ->
      runs_to (step :: rest) s s2.

(** Flag settings of the end-to-end scenarios. *)
Definition fault_on_check_module : Flags :=
  mkFlags false true false false false false false false false.

Definition fault_on_activation : Flags :=
  mkFlags false false false false true false false false false.

Definition fault_on_close_change : Flags :=
  mkFlags false false false false false true false false false.

Definition fault_on_create_incident : Flags :=
  mkFlags false false false false false false false true false.

Definition fault_on_get_device_and_create_incident : Flags :=
  mkFlags true false false false false false false true false.

(** A worker whose activation has completed and whose change is implemented. *)
Definition activated (esp cr : string) : ActivationWorker :=
  set_activation_state ACTIVATION_COMPLETED
    (set_change_state IMPLEMENT (init esp cr)).

(** ** Vocabulary of the properties *)

(** The classes [handle_error] tests its argument against. *)
Definition handle_error_branches : list exn :=
  [GetDeviceError; CheckModuleError; PreCheckError; ActivationError;
   CloseChangeError; UploadArtifactsError].

(** The record with which [handle_error] enters the branch of an error. *)
Definition handling_message (error : exn) : string :=
  match error with
  | GetDeviceError => "handling get device error"
  | CheckModuleError => "handling check module error"
  | PreCheckError => "handling pre check error"
  | ActivationError => "handling activation error"
  | CloseChangeError => "handling close change error"
  | UploadArtifactsError => "handling upload artifact error"
  | _ => EmptyString
  end.

(** The incident [create_incident] records for an error. *)
Definition incident_for (error : exn) : event :=
  if isinstance error ActivationError
  then service_offering_incident error
  else software_incident error.

(** The world in which the retry of the [CloseChangeError] branch starts. *)
Definition before_retry (s : world) : world :=
  after s [Info "handling close change error" []; Sleep 3].

(** The errors for which [handle_error] runs the chain that starts with
    [close_change]. *)
Definition runs_close_chain (error : exn) (s : world) : bool :=
  match error with
  | GetDeviceError | CheckModuleError =>
      bool_decide (change_state (worker s) = IMPLEMENT)
  | PreCheckError | ActivationError | CloseChangeError => true
  | _ => false
  end.

(** The change states the spec calls terminal. *)
Definition is_terminal (c : ChangeState) : bool :=
  match c with
  | CLOSED | CANCELLED => true
  | _ => false
  end.

(** The calls that take [change_state] out of [CLOSED] or [CANCELLED]: an
    implement-change that succeeds, a cancel-change that succeeds on a
    closed change, and a close-change that succeeds, with the activation
    completed, on a cancelled change. *)
Definition leaves_terminal (fl : Flags) (a : action) (s : world) : bool :=
  match a with
  | Step ImplementChange => negb (_ERROR_ON_IMPLEMENT_CHANGE fl)
  | Step CancelChange =>
      negb (_ERROR_ON_CANCEL_CHANGE fl)
      && bool_decide (change_state (worker s) = CLOSED)
  | Step CloseChange =>
      negb (_ERROR_ON_CLOSE_CHANGE fl)
      && bool_decide (activation_state (worker s) = ACTIVATION_COMPLETED)
      && bool_decide (change_state (worker s) = CANCELLED)
  | _ => false
  end.

(** ** Vocabulary of the further properties *)

(** The flag each step action tests, and the class it raises. *)
Definition step_flag (fl : Flags) (n : step_name) : bool :=
  match n with
  | GetDeviceInfo => _ERROR_ON_GET_DEVICE fl
  | CheckModule => _ERROR_ON_CHECK_MODULE fl
  | ImplementChange => _ERROR_ON_IMPLEMENT_CHANGE fl
  | ActivationPreChecks => _ERROR_ON_PRE_CHECKS fl
  | ActivateDevice => _ERROR_ON_ACTIVATION fl
  | CloseChange => _ERROR_ON_CLOSE_CHANGE fl
  | CancelChange => _ERROR_ON_CANCEL_CHANGE fl
  | UploadArtifacts => _ERROR_ON_UPLOAD_ARTIFACTS fl
  end.

Definition step_error (n : step_name) : exn :=
  match n with
  | GetDeviceInfo => GetDeviceError
  | CheckModule => CheckModuleError
  | ImplementChange => ImplementChangeError
  | ActivationPreChecks => PreCheckError
  | ActivateDevice => ActivationError
  | CloseChange => CloseChangeError
  | CancelChange => CancelChangeError
  | UploadArtifacts => UploadArtifactsError
  end.

(** The fields a step action assigns. *)
Definition writes_device (n : step_name) : bool :=
  match n with
  | GetDeviceInfo => true
  | _ => false
  end.

Definition writes_change_state (n : step_name) : bool :=
  match n with
  | ImplementChange | CloseChange | CancelChange => true
  | _ => false
  end.

Definition writes_activation_state (n : step_name) : bool :=
  match n with
  | CheckModule | ActivationPreChecks | ActivateDevice => true
  | _ => false
  end.

(** The failures that [handle_error] lets out: its own
    [CreateIncidentError], those of the compensating actions outside the
    [try], and the [AttributeError] of a chain on [None]. *)
Definition escapes_handle_error (e : exn) : bool :=
  match e with
  | CreateIncidentError | CancelChangeError | CloseChangeError
  | UploadArtifactsError | AttributeError => true
  | _ => false
  end.

(** The errors whose branch of [handle_error] sleeps. *)
Definition backs_off (error : exn) : bool :=
  match error with
  | CloseChangeError | UploadArtifactsError => true
  | _ => false
  end.

(** The run of [main]'s steps on a fresh worker. *)
Definition run_main (fl : Flags) (esp cr : string) : outcome unit :=
  run_activation fl (main_steps fl) (mkWorld (init esp cr) []).

(** The fault settings under which the run of [main]'s steps returns: a
    fault on get-device-info or check-module is recovered by cancel, upload
    and incident; one on implement-change falls through; one on pre-checks
    or activate-device is never recovered; one on close-change is recovered
    by an incident; one on upload-artifacts alone is retried in vain. *)
Definition main_returns (fl : Flags) : bool :=
  if _ERROR_ON_GET_DEVICE fl || _ERROR_ON_CHECK_MODULE fl then
    negb (_ERROR_ON_CREATE_INCIDENT fl) && negb (_ERROR_ON_CANCEL_CHANGE fl)
    && negb (_ERROR_ON_UPLOAD_ARTIFACTS fl)
  else if _ERROR_ON_IMPLEMENT_CHANGE fl then
    negb (_ERROR_ON_CREATE_INCIDENT fl)
  else if _ERROR_ON_PRE_CHECKS fl || _ERROR_ON_ACTIVATION fl then false
  else if _ERROR_ON_CLOSE_CHANGE fl then negb (_ERROR_ON_CREATE_INCIDENT fl)
  else negb (_ERROR_ON_UPLOAD_ARTIFACTS fl).

(** The change state the run of [main]'s steps ends in. *)
Definition main_change_state (fl : Flags) : ChangeState :=
  if _ERROR_ON_GET_DEVICE fl || _ERROR_ON_CHECK_MODULE fl then
    if _ERROR_ON_CREATE_INCIDENT fl || _ERROR_ON_CANCEL_CHANGE fl
    then SCHEDULED else CANCELLED
  else if _ERROR_ON_IMPLEMENT_CHANGE fl then SCHEDULED
  else if _ERROR_ON_PRE_CHECKS fl || _ERROR_ON_ACTIVATION fl
          || _ERROR_ON_CLOSE_CHANGE fl then IMPLEMENT
  else CLOSED.

(** The record of a service-offering incident, whatever the error. *)
Definition is_service_offering (ev : event) : bool :=
  match ev with
  | Info msg _ => bool_decide (msg = "created incident for error: %r.")
  | Sleep _ => false
  end.

(** The variables of the environment that [main.py] reads. *)
Definition flag_variables : list string :=
  ["ERROR_ON_GET_DEVICE"; "ERROR_ON_CHECK_MODULE";
   "ERROR_ON_IMPLEMENT_CHANGE"; "ERROR_ON_PRE_CHECKS";
   "ERROR_ON_ACTIVATION"; "ERROR_ON_CLOSE_CHANGE";
   "ERROR_ON_UPLOAD_ARTIFACTS"; "ERROR_ON_CREATE_INCIDENT";
   "ERROR_ON_CANCEL_CHANGE"].

(** * Properties *)

(** ** Effects and evaluation *)

Lemma incidents_app l1 l2 : incidents (l1 ++ l2) = incidents l1 ++ incidents l2.
Proof. apply List.filter_app. Qed.

Lemma sleeps_app l1 l2 : sleeps (l1 ++ l2) = sleeps l1 ++ sleeps l2.
Proof. apply List.filter_app. Qed.

Lemma uploads_app l1 l2 : uploads (l1 ++ l2) = uploads l1 ++ uploads l2.
Proof. apply List.filter_app. Qed.

(** Unfolding of the methods and of the monad under them. *)
Ltac unfold_methods :=
  cbv [perform bound_method handle_error create_incident
       create_service_offering_incident create_software_incident
       get_device_info check_module implement_change activation_pre_checks
       activate_device close_change cancel_change upload_artifacts
       when_ try_except dot info sleep emit update read raise
       mbind M_bind mret M_ret isinstance after];
  cbn.

(** Evaluation of a call on a worker and flags given field by field, keeping
    the earlier effects apart. *)
Ltac evaluate := cbv -[app incidents uploads sleeps].

(** Equations between effects observed after a run and before it. *)
Ltac effects_eq :=
  cbn [effects worker final after];
  rewrite ?incidents_app, ?uploads_app, ?sleeps_app;
  repeat match goal with
  | |- context [incidents (?x :: ?xs)] =>
      let v := eval vm_compute in (incidents (x :: xs)) in
      change (incidents (x :: xs)) with v
  | |- context [uploads (?x :: ?xs)] =>
      let v := eval vm_compute in (uploads (x :: xs)) in
      change (uploads (x :: xs)) with v
  | |- context [sleeps (?x :: ?xs)] =>
      let v := eval vm_compute in (sleeps (x :: xs)) in
      change (sleeps (x :: xs)) with v
  end;
  rewrite ?app_nil_r, <- ?app_assoc;
  reflexivity.

(** Case analysis on the flags and on the fields a method tests. *)
Ltac by_cases :=
  unfold_methods;
  repeat match goal with
  | |- context [if ?b then _ else _] => is_var b; destruct b; cbn
  | |- context [bool_decide (?x = _)] => is_var x; destruct x; cbn
  end.

(** With no variable of the environment set, no fault is injected. *)
Lemma load_flags_empty : load_flags ∅ = no_faults.
Proof. reflexivity. Qed.

(** A variable set to the empty string injects no fault either. *)
Lemma environ_get_empty_string (environ : gmap string string) key :
  environ_get (<[key := EmptyString]> environ) key = false.
Proof. unfold environ_get. rewrite lookup_insert_eq. reflexivity. Qed.

Lemma environ_get_set (environ : gmap string string) key c v :
  environ_get (<[key := String c v]> environ) key = true.
Proof. unfold environ_get. rewrite lookup_insert_eq. reflexivity. Qed.

(** ** The monad and the sequencer loop *)

Lemma bind_returned {A B} (m : M A) (k : A -> M B) a s s1 :
  m s = Returned a s1 -> (m ≫= k) s = k a s1.
Proof. intros H. unfold mbind, M_bind. rewrite H. reflexivity. Qed.

Lemma bind_raised {A B} (m : M A) (k : A -> M B) e s s1 :
  m s = Raised e s1 -> (m ≫= k) s = Raised e s1.
Proof. intros H. unfold mbind, M_bind. rewrite H. reflexivity. Qed.

Lemma for_each_cons step rest s :
  for_each (step :: rest) s = (step ≫= fun _ => for_each rest) s.
Proof. reflexivity. Qed.

Lemma for_each_runs_to steps s s' :
  runs_to steps s s' <-> for_each steps s = Returned tt s'.
Proof.
  split.
  - induction 1 as [s | step rest r s s1 s2 Hstep _ IH].
    + reflexivity.
    + rewrite for_each_cons, (bind_returned _ _ _ _ _ Hstep). exact IH.
  - revert s. induction steps as [| step rest IH]; intros s H.
    + injection H as ->. constructor.
    + rewrite for_each_cons in H. unfold mbind, M_bind in H.
      destruct (step s) as [r s1 | e s1] eqn:Hstep; [| discriminate].
      econstructor; [exact Hstep | apply IH, H].
Qed.

(** The loop stops at the first step that raises: what follows it in the
    list has no part in the outcome. *)
Lemma for_each_first_failure pre step post e s s1 s2 :
  runs_to pre s s1 ->
  step s1 = Raised e s2 ->
  for_each (pre ++ step :: post) s = Raised e s2.
Proof.
  intros Hpre Hstep.
  induction Hpre as [s | st rest r s sa sb Hst _ IH]; simpl.
  - apply bind_raised, Hstep.
  - change ((st ≫= fun _ => for_each (rest ++ step :: post)) s = Raised e s2).
    rewrite (bind_returned _ _ _ _ _ Hst). apply IH, Hstep.
Qed.

Lemma run_activation_completes fl steps s s' :
  for_each steps s = Returned tt s' ->
  run_activation fl steps s = Returned tt s'.
Proof. intros H. unfold run_activation, try_except. rewrite H. reflexivity. Qed.

Lemma run_activation_dispatches fl steps e s s' :
  for_each steps s = Raised e s' ->
  existsb (isinstance e) run_activation_catches = true ->
  run_activation fl steps s = (handle_error fl e ;; mret tt) s'.
Proof.
  intros H Hc. unfold run_activation, try_except. rewrite H, Hc. reflexivity.
Qed.

(** With the incident fault injected [handle_error] raises at once. *)
Lemma handle_error_incident_fault fl e s :
  _ERROR_ON_CREATE_INCIDENT fl = true ->
  handle_error fl e s = Raised CreateIncidentError s.
Proof. intros H. unfold handle_error. rewrite H. reflexivity. Qed.

(** A step action raises nothing but failures that [run_activation]
    catches. *)
Lemma bound_method_raises_caught fl n s e s' :
  bound_method fl n s = Raised e s' ->
  existsb (isinstance e) run_activation_catches = true.
Proof.
  destruct fl as [f1 f2 f3 f4 f5 f6 f7 f8 f9], s as [[esp cr c a d] l].
  destruct n; cbv [bound_method get_device_info check_module implement_change
    activation_pre_checks activate_device close_change cancel_change
    upload_artifacts _ERROR_ON_GET_DEVICE _ERROR_ON_CHECK_MODULE
    _ERROR_ON_IMPLEMENT_CHANGE _ERROR_ON_PRE_CHECKS _ERROR_ON_ACTIVATION
    _ERROR_ON_CLOSE_CHANGE _ERROR_ON_UPLOAD_ARTIFACTS _ERROR_ON_CANCEL_CHANGE].
  all: try (destruct a); 
    repeat match goal with
    | |- context [if ?b then _ else _] => is_var b; destruct b
    end; cbn; intros H; try discriminate H; injection H as <- _; reflexivity.
Qed.

Lemma for_each_methods_raise_caught fl names s e s' :
  for_each (map (bound_method fl) names) s = Raised e s' ->
  existsb (isinstance e) run_activation_catches = true.
Proof.
  revert s. induction names as [| n names IH]; intros s H.
  - discriminate H.
  - simpl map in H. rewrite for_each_cons in H. unfold mbind, M_bind in H.
    destruct (bound_method fl n s) as [r s1 | e1 s1] eqn:Hn.
    + apply (IH _ H).
    + injection H as -> ->. apply (bound_method_raises_caught _ _ _ _ _ Hn).
Qed.

(** ** The sequencer *)

(** C6: [run_activation] runs the steps in list order, each from the world
    its predecessor left; at the first step that raises a failure of the
    [except] clause the loop ends, the steps after it do not run (the
    outcome is the same whatever they are), no step is run again, and the
    failure goes to [handle_error] once, in the world the failing step
    left. *)
Theorem run_activation_stops_at_first_failure
    fl (pre post : list (M pyref)) (step : M pyref) e s s1 s2 :
  runs_to pre s s1 ->
  step s1 = Raised e s2 ->
  In e run_activation_catches ->
  run_activation fl (pre ++ step :: post) s
  = (handle_error fl e ;; mret tt) s2.
Proof.
  intros Hpre Hstep Hin.
  apply run_activation_dispatches.
  - apply (for_each_first_failure _ _ _ _ _ _ _ Hpre Hstep).
  - apply existsb_exists. exists e. split; [exact Hin |].
    unfold isinstance. apply bool_decide_eq_true_2. reflexivity.
Qed.

(** The first two steps of [main] with the fault on check-module, followed
    by two more steps. *)
Lemma run_activation_stops_at_first_failure_witness :
  runs_to [get_device_info fault_on_check_module]
          (mkWorld (init "cisco" "CHG1234") [])
          (mkWorld (set_device (Some (mkDevice "switch-1.cisco.com" "switch-1"))
                               (init "cisco" "CHG1234"))
                   [Info "got device info." []])
  /\ In CheckModuleError run_activation_catches
  /\ run_activation fault_on_check_module
       ([get_device_info fault_on_check_module]
          ++ check_module fault_on_check_module
          :: [implement_change fault_on_check_module;
              activation_pre_checks fault_on_check_module])
       (mkWorld (init "cisco" "CHG1234") [])
     = (handle_error fault_on_check_module CheckModuleError ;; mret tt)
         (mkWorld (set_device (Some (mkDevice "switch-1.cisco.com" "switch-1"))
                              (init "cisco" "CHG1234"))
                  [Info "got device info." []]).
Proof.
  assert (Hpre : runs_to [get_device_info fault_on_check_module]
          (mkWorld (init "cisco" "CHG1234") [])
          (mkWorld (set_device (Some (mkDevice "switch-1.cisco.com" "switch-1"))
                               (init "cisco" "CHG1234"))
                   [Info "got device info." []])).
  { econstructor; [reflexivity | constructor]. }
  assert (Hin : In CheckModuleError run_activation_catches).
  { simpl. tauto. }
  split; [exact Hpre | split; [exact Hin |]].
  apply (run_activation_stops_at_first_failure fault_on_check_module
           _ _ _ CheckModuleError _ _ _ Hpre); [reflexivity | exact Hin].
Defined.

(** C3: with no fault injected the sequence of [main] runs to completion,
    leaving the change closed, the activation completed and no incident. *)
Theorem scenario_no_faults esp cr :
  let o := run_activation no_faults (main_steps no_faults)
             (mkWorld (init esp cr) []) in
  returns o = true
  /\ change_state (worker (final o)) = CLOSED
  /\ activation_state (worker (final o)) = ACTIVATION_COMPLETED
  /\ incidents (effects (final o)) = [].
Proof. repeat split. Qed.

(** C5: with a fault on check-module only, the failure reaches
    [handle_error] with the change still scheduled; recovery is
    cancel-change, then upload-artifacts, then one software incident, and
    the change ends cancelled. *)
Theorem scenario_check_module_fault esp cr :
  let fl := fault_on_check_module in
  let failed :=
    mkWorld (set_device (Some (mkDevice "switch-1.cisco.com" "switch-1"))
                        (init esp cr))
            [Info "got device info." []] in
  let o := run_activation fl (main_steps fl) (mkWorld (init esp cr) []) in
  for_each (main_steps fl) (mkWorld (init esp cr) [])
    = Raised CheckModuleError failed
  /\ change_state (worker failed) = SCHEDULED
  /\ o = (cancel_change fl .> upload_artifacts fl
            .> create_incident fl CheckModuleError ;; mret tt)
           (after failed [Info "handling check module error" []])
  /\ returns o = true
  /\ change_state (worker (final o)) = CANCELLED
  /\ uploads (effects (final o)) = [Info "uploaded artifacts" []]
  /\ incidents (effects (final o)) = [software_incident CheckModuleError].
Proof. repeat split. Qed.

(** ** The step actions *)

(** What [close_change] does while the activation is not completed. *)
Lemma close_change_not_completed fl s :
  activation_state (worker s) <> ACTIVATION_COMPLETED ->
  close_change fl s
  = if _ERROR_ON_CLOSE_CHANGE fl then Raised CloseChangeError s
    else Returned PyNone (after s [Info "change closed unsuccessfully" []]).
Proof.
  intros Hact. unfold close_change.
  destruct (_ERROR_ON_CLOSE_CHANGE fl); [reflexivity |].
  unfold mbind, M_bind, read.
  rewrite bool_decide_eq_false_2 by exact Hact. reflexivity.
Qed.

(** C8, as the code has it: while the activation is not completed,
    [close_change] never changes [change_state]; unless the close fault is
    injected it does not raise either: it logs the unsuccessful close and
    returns [None], leaving the worker as it was. *)
Theorem close_change_noop fl s :
  activation_state (worker s) <> ACTIVATION_COMPLETED ->
  change_state (worker (final (close_change fl s))) = change_state (worker s)
  /\ (if _ERROR_ON_CLOSE_CHANGE fl
      then close_change fl s = Raised CloseChangeError s
      else close_change fl s
           = Returned PyNone
               (after s [Info "change closed unsuccessfully" []])).
Proof.
  intros Hact. rewrite (close_change_not_completed fl s Hact).
  destruct (_ERROR_ON_CLOSE_CHANGE fl); split; reflexivity.
Qed.

(** On a fresh worker, with no fault. *)
Lemma close_change_noop_witness :
  activation_state (worker (mkWorld (init "cisco" "CHG1234") []))
    <> ACTIVATION_COMPLETED
  /\ close_change no_faults (mkWorld (init "cisco" "CHG1234") [])
     = Returned PyNone
         (mkWorld (init "cisco" "CHG1234")
                  [Info "change closed unsuccessfully" []]).
Proof.
  assert (H : activation_state (worker (mkWorld (init "cisco" "CHG1234") []))
              <> ACTIVATION_COMPLETED) by discriminate.
  split; [exact H |].
  exact (proj2 (close_change_noop no_faults
                  (mkWorld (init "cisco" "CHG1234") []) H)).
Defined.

(** C8 fails as stated: with the close fault injected, [close_change]
    raises [CloseChangeError] also while the activation is not completed. *)
Lemma close_change_raises_before_completion :
  activation_state (worker (mkWorld (init "cisco" "CHG1234") []))
    <> ACTIVATION_COMPLETED
  /\ close_change fault_on_close_change (mkWorld (init "cisco" "CHG1234") [])
     = Raised CloseChangeError (mkWorld (init "cisco" "CHG1234") []).
Proof. split; [discriminate | reflexivity]. Qed.

(** ** Terminal change states *)

(** C9, as the code has it: from [CLOSED] or [CANCELLED], every step action
    and every recovery action leaves [change_state] as it was, except
    exactly the three calls of [leaves_terminal], which overwrite it: an
    implement-change that succeeds sets [IMPLEMENT], a cancel-change that
    succeeds on a closed change sets [CANCELLED], and a close-change that
    succeeds, the activation completed, on a cancelled change sets
    [CLOSED]. *)
Theorem terminal_change_state fl a s :
  is_terminal (change_state (worker s)) = true ->
  change_state (worker (final (perform fl a s)))
  = (if leaves_terminal fl a s then
       match a with
       | Step ImplementChange => IMPLEMENT
       | Step CancelChange => CANCELLED
       | Step CloseChange => CLOSED
       | _ => change_state (worker s)
       end
     else change_state (worker s))
  /\ (change_state (worker (final (perform fl a s))) = change_state (worker s)
      <-> leaves_terminal fl a s = false).
Proof.
  intros Hterm.
  destruct s as [[esp cr c act d] l]; simpl in Hterm.
  destruct fl as [f1 f2 f3 f4 f5 f6 f7 f8 f9].
  destruct c; try discriminate Hterm; clear Hterm;
    destruct a as [[] | e | e | e]; cbn;
    by_cases; (split; [reflexivity |]);
    split; intros H; try reflexivity; try discriminate H.
Qed.

(** Cancel-change on a closed change. *)
Lemma terminal_change_state_witness :
  is_terminal (change_state (worker
     (mkWorld (set_change_state CLOSED (activated "cisco" "CHG1234")) [])))
  = true
  /\ leaves_terminal no_faults (Step CancelChange)
       (mkWorld (set_change_state CLOSED (activated "cisco" "CHG1234")) [])
     = true
  /\ change_state (worker (final (perform no_faults (Step CancelChange)
        (mkWorld (set_change_state CLOSED (activated "cisco" "CHG1234")) []))))
     = CANCELLED.
Proof.
  split; [reflexivity | split; [reflexivity |]].
  apply (terminal_change_state no_faults (Step CancelChange)
           (mkWorld (set_change_state CLOSED (activated "cisco" "CHG1234")) [])).
  reflexivity.
Defined.

(** C9 fails as stated: implement-change on a closed change sets
    [change_state] to [IMPLEMENT]. *)
Lemma implement_change_reopens :
  let s := mkWorld (set_change_state CLOSED (activated "cisco" "CHG1234")) [] in
  change_state (worker s) = CLOSED
  /\ change_state (worker (final (implement_change no_faults s))) = IMPLEMENT.
Proof. split; reflexivity. Qed.

(** ** The recovery dispatcher *)

(** C7, as the code has it: [ImplementChangeError] and [CancelChangeError]
    match none of the [isinstance] tests of [handle_error]: the worker (so
    both state fields) and the effects are left as they were, with no
    compensating action and no incident.  [handle_error] returns, unless
    the incident fault is injected: then it raises [CreateIncidentError]
    before any test. *)
Theorem handle_error_falls_through fl e s :
  In e [ImplementChangeError; CancelChangeError] ->
  forallb (fun cls => negb (isinstance e cls)) handle_error_branches = true
  /\ final (handle_error fl e s) = s
  /\ handle_error fl e s
     = if _ERROR_ON_CREATE_INCIDENT fl then Raised CreateIncidentError s
       else Returned PySelf s.
Proof.
  intros [<- | [<- | []]]; destruct s as [w l], (_ERROR_ON_CREATE_INCIDENT fl) eqn:Hf;
    unfold_methods; rewrite Hf; repeat split.
Qed.

(** [ImplementChangeError] on a fresh worker, with no fault. *)
Lemma handle_error_falls_through_witness :
  In ImplementChangeError [ImplementChangeError; CancelChangeError]
  /\ handle_error no_faults ImplementChangeError
       (mkWorld (init "cisco" "CHG1234") [Info "got device info." []])
     = Returned PySelf
         (mkWorld (init "cisco" "CHG1234") [Info "got device info." []]).
Proof.
  assert (H : In ImplementChangeError [ImplementChangeError; CancelChangeError])
    by (left; reflexivity).
  split; [exact H |].
  exact (proj2 (proj2 (handle_error_falls_through no_faults ImplementChangeError
           (mkWorld (init "cisco" "CHG1234") [Info "got device info." []]) H))).
Defined.

(** C7 fails as stated: with the incident fault injected, an
    [ImplementChangeError] handed to [handle_error] does not fall through
    silently; [handle_error] raises [CreateIncidentError]. *)
Lemma handle_error_falls_through_not_silent :
  let s := mkWorld (init "cisco" "CHG1234") [Info "got device info." []] in
  handle_error fault_on_create_incident ImplementChangeError s
  = Raised CreateIncidentError s
  /\ returns (handle_error fault_on_create_incident ImplementChangeError s)
     = false.
Proof. split; reflexivity. Qed.

(** C1, as the code has it.  When [PreCheckError] or [ActivationError]
    reaches [handle_error] with the activation completed and no fault on
    close-change, upload-artifacts or incident creation, recovery is
    close-change, then upload-artifacts, then one incident (service-offering
    for [ActivationError], software for [PreCheckError]), and the change
    ends closed.  With a fault on activate-device only, the sequence of
    [main] ends with the change still in [IMPLEMENT], close-change being
    without effect before the activation completes, and the activation in
    [START_ACTIVATION]. *)
Theorem handle_error_close_branch fl e s :
  In e [PreCheckError; ActivationError] ->
  activation_state (worker s) = ACTIVATION_COMPLETED ->
  _ERROR_ON_CLOSE_CHANGE fl = false ->
  _ERROR_ON_UPLOAD_ARTIFACTS fl = false ->
  _ERROR_ON_CREATE_INCIDENT fl = false ->
  handle_error fl e s
  = (close_change fl .> upload_artifacts fl .> create_incident fl e)
      (after s [Info (handling_message e) []])
  /\ returns (handle_error fl e s) = true
  /\ worker (final (handle_error fl e s)) = set_change_state CLOSED (worker s)
  /\ uploads (effects (final (handle_error fl e s)))
     = uploads (effects s) ++ [Info "uploaded artifacts" []]
  /\ incidents (effects (final (handle_error fl e s)))
     = incidents (effects s) ++ [incident_for e]
  /\ (forall esp cr,
        let o := run_activation fault_on_activation
                   (main_steps fault_on_activation)
                   (mkWorld (init esp cr) []) in
        change_state (worker (final o)) = IMPLEMENT
        /\ activation_state (worker (final o)) = START_ACTIVATION).
Proof.
  intros He Hact Hclose Hupload Hincident.
  destruct s as [[esp cr c a d] l], fl as [f1 f2 f3 f4 f5 f6 f7 f8 f9].
  simpl in Hact, Hclose, Hupload, Hincident. subst a f6 f7 f8.
  destruct He as [<- | [<- | []]].
  all: split; [evaluate; reflexivity |].
  all: evaluate; repeat split; effects_eq.
Qed.

(** [ActivationError] on a worker whose activation has completed, with no
    fault. *)
Lemma handle_error_close_branch_witness :
  handle_error no_faults ActivationError
    (mkWorld (activated "cisco" "CHG1234") [])
  = (close_change no_faults .> upload_artifacts no_faults
       .> create_incident no_faults ActivationError)
      (mkWorld (activated "cisco" "CHG1234")
               [Info "handling activation error" []])
  /\ worker (final (handle_error no_faults ActivationError
                      (mkWorld (activated "cisco" "CHG1234") [])))
     = set_change_state CLOSED (activated "cisco" "CHG1234")
  /\ incidents (effects (final (handle_error no_faults ActivationError
                                  (mkWorld (activated "cisco" "CHG1234") []))))
     = [service_offering_incident ActivationError].
Proof.
  destruct (handle_error_close_branch no_faults ActivationError
              (mkWorld (activated "cisco" "CHG1234") []))
    as (Hchain & _ & Hworker & _ & Hincidents & _);
    [right; left; reflexivity | reflexivity | reflexivity | reflexivity
    | reflexivity |].
  split; [exact Hchain | split; [exact Hworker | exact Hincidents]].
Defined.

(** The close branch has no guard of its own: when the upload fails after a
    successful close, the change is closed but no incident is recorded, and
    [UploadArtifactsError] leaves [handle_error]. *)
Lemma handle_error_close_branch_upload_fault :
  let fl := mkFlags false false false false false false true false false in
  let o := handle_error fl PreCheckError
             (mkWorld (activated "cisco" "CHG1234") []) in
  o = Raised UploadArtifactsError
        (mkWorld (set_change_state CLOSED (activated "cisco" "CHG1234"))
           [Info "handling pre check error" [];
            Info "change closed successfully" []])
  /\ incidents (effects (final o)) = [].
Proof. split; reflexivity. Qed.

(** C1 fails as stated: with a fault on activate-device only, the run of
    [main] does not end with the change closed and a service-offering
    incident; the change is left in [IMPLEMENT] and no incident is
    recorded. *)
Lemma scenario_activation_fault_not_closed :
  let o := main fault_on_activation in
  ~ (change_state (worker (final o)) = CLOSED
     /\ activation_state (worker (final o)) = START_ACTIVATION
     /\ incidents (effects (final o))
        = [service_offering_incident ActivationError]).
Proof. intros o [H _]. discriminate H. Qed.

(** C4, as the code has it: unless the incident fault is injected, a
    [CloseChangeError] makes [handle_error] sleep once, for 3, and then run
    close-change followed by upload-artifacts once, under [try].  When that
    retry returns, [handle_error] returns in the world the retry left, with
    no incident; when it raises [CloseChangeError] or
    [UploadArtifactsError], [handle_error] records one software incident,
    for the [CloseChangeError] it was given, and returns. *)
Theorem handle_close_change_error fl s :
  _ERROR_ON_CREATE_INCIDENT fl = false ->
  sleeps (effects (final (handle_error fl CloseChangeError s)))
  = sleeps (effects s) ++ [Sleep 3]
  /\ (forall r s2,
        (close_change fl .> upload_artifacts fl) (before_retry s)
        = Returned r s2 ->
        handle_error fl CloseChangeError s = Returned PySelf s2
        /\ incidents (effects s2) = incidents (effects s))
  /\ (forall e s2,
        (close_change fl .> upload_artifacts fl) (before_retry s)
        = Raised e s2 ->
        In e [CloseChangeError; UploadArtifactsError] ->
        handle_error fl CloseChangeError s
        = Returned PySelf (after s2 [software_incident CloseChangeError])
        /\ incidents (effects (after s2 [software_incident CloseChangeError]))
           = incidents (effects s) ++ [software_incident CloseChangeError]).
Proof.
  intros Hincident.
  destruct s as [[esp cr c a d] l], fl as [f1 f2 f3 f4 f5 f6 f7 f8 f9].
  simpl in Hincident. subst f8.
  destruct f6, f7, a; evaluate; (split; [effects_eq |]); split.
  all: intros x s2 H; try intros Hin; try discriminate H.
  all: injection H as <- <-.
  all: try (destruct Hin as [Hin | [Hin | []]]; discriminate Hin).
  all: cbn [effects worker after]; rewrite <- ?app_assoc.
  all: split; [reflexivity | effects_eq].
Qed.

(** With the close fault injected the retry raises [CloseChangeError]. *)
Lemma handle_close_change_error_witness :
  _ERROR_ON_CREATE_INCIDENT fault_on_close_change = false
  /\ sleeps (effects (final (handle_error fault_on_close_change
                               CloseChangeError
                               (mkWorld (activated "cisco" "CHG1234") []))))
     = [Sleep 3]
  /\ handle_error fault_on_close_change CloseChangeError
       (mkWorld (activated "cisco" "CHG1234") [])
     = Returned PySelf
         (mkWorld (activated "cisco" "CHG1234")
            [Info "handling close change error" []; Sleep 3;
             software_incident CloseChangeError]).
Proof.
  assert (H : _ERROR_ON_CREATE_INCIDENT fault_on_close_change = false)
    by reflexivity.
  destruct (handle_close_change_error fault_on_close_change
              (mkWorld (activated "cisco" "CHG1234") []) H)
    as (Hsleep & _ & Hfail).
  split; [exact H | split; [exact Hsleep |]].
  apply (Hfail CloseChangeError
           (before_retry (mkWorld (activated "cisco" "CHG1234") []))).
  - reflexivity.
  - left. reflexivity.
Defined.

(** C4 fails as stated: with the incident fault injected, [handle_error]
    raises [CreateIncidentError] on a [CloseChangeError] before it sleeps
    or retries. *)
Lemma handle_close_change_error_no_backoff :
  let s := mkWorld (activated "cisco" "CHG1234") [] in
  handle_error fault_on_create_incident CloseChangeError s
  = Raised CreateIncidentError s
  /\ sleeps (effects (final
       (handle_error fault_on_create_incident CloseChangeError s))) = [].
Proof. split; reflexivity. Qed.

(** C10: while the activation is not completed and the close fault is not
    injected, [close_change] returns [None], so that the chains
    [close_change().upload_artifacts()] and
    [close_change().upload_artifacts().create_incident(error)] raise
    [AttributeError], which is not of the taxonomy, having uploaded nothing
    and created no incident; and so does [handle_error] in every branch
    that runs such a chain. *)
Theorem close_chain_aborts fl s :
  activation_state (worker s) <> ACTIVATION_COMPLETED ->
  _ERROR_ON_CLOSE_CHANGE fl = false ->
  let s' := after s [Info "change closed unsuccessfully" []] in
  close_change fl s = Returned PyNone s'
  /\ (close_change fl .> upload_artifacts fl) s = Raised AttributeError s'
  /\ (forall error,
        (close_change fl .> upload_artifacts fl .> create_incident fl error) s
        = Raised AttributeError s')
  /\ in_taxonomy AttributeError = false
  /\ (forall error,
        _ERROR_ON_CREATE_INCIDENT fl = false ->
        runs_close_chain error s = true ->
        exists evs,
          handle_error fl error s = Raised AttributeError (after s evs)
          /\ uploads evs = []
          /\ incidents evs = []).
Proof.
  intros Hact Hclose s'.
  pose proof (close_change_not_completed fl s Hact) as Hcc.
  rewrite Hclose in Hcc. fold s' in Hcc.
  assert (Hchain : (close_change fl .> upload_artifacts fl) s
                   = Raised AttributeError s').
  { rewrite (bind_returned _ _ _ _ _ Hcc). reflexivity. }
  split; [exact Hcc | split; [exact Hchain | split; [| split; [reflexivity |]]]].
  - intros error. apply bind_raised, Hchain.
  - intros error Hincident Hruns. subst s'.
    destruct s as [[esp cr c a d] l], fl as [f1 f2 f3 f4 f5 f6 f7 f8 f9].
    simpl in Hact, Hclose, Hincident. subst f6 f8.
    destruct error; try discriminate Hruns;
      try (apply bool_decide_eq_true_1 in Hruns; simpl in Hruns; subst c);
      destruct a; try (exfalso; apply Hact; reflexivity);
      eexists; evaluate; rewrite <- ?app_assoc; repeat split.
Qed.

(** [ActivationError] on a worker left in [START_ACTIVATION]. *)
Lemma close_chain_aborts_witness :
  let s := mkWorld (set_activation_state START_ACTIVATION
                      (activated "cisco" "CHG1234")) [] in
  activation_state (worker s) <> ACTIVATION_COMPLETED
  /\ _ERROR_ON_CLOSE_CHANGE fault_on_activation = false
  /\ (close_change fault_on_activation .> upload_artifacts fault_on_activation) s
     = Raised AttributeError
         (after s [Info "change closed unsuccessfully" []])
  /\ exists evs,
       handle_error fault_on_activation ActivationError s
       = Raised AttributeError (after s evs)
       /\ uploads evs = []
       /\ incidents evs = [].
Proof.
  intros s.
  assert (Hact : activation_state (worker s) <> ACTIVATION_COMPLETED)
    by discriminate.
  assert (Hclose : _ERROR_ON_CLOSE_CHANGE fault_on_activation = false)
    by reflexivity.
  destruct (close_chain_aborts fault_on_activation s Hact Hclose)
    as (_ & Hchain & _ & _ & Hhandle).
  split; [exact Hact | split; [exact Hclose | split; [exact Hchain |]]].
  apply (Hhandle ActivationError); reflexivity.
Defined.

(** * Further properties *)

(** ** Evaluation by cases *)

(** Evaluation of a call, splitting on the flags and fields it tests. *)
Ltac cases :=
  evaluate;
  repeat match goal with
  | |- context [if ?b then _ else _] => is_var b; destruct b; evaluate
  | |- context [match ?x with _ => _ end] => is_var x; destruct x; evaluate
  end.

(** The effects a call added, given as what follows the earlier ones. *)
Ltac added :=
  first [ exists []; split; [rewrite app_nil_r; reflexivity |]
        | eexists; split; [rewrite <- ?app_assoc; reflexivity |] ].

(** ** The step actions *)

(** X1: a step action raises exactly when its fault is injected, and then
    its own class and nothing else.  A step that raises has logged nothing
    and has left the worker as it was, except activate-device, which has
    already set [START_ACTIVATION]. *)
Theorem step_failure fl n s :
  returns (bound_method fl n s) = negb (step_flag fl n)
  /\ (forall e s',
        bound_method fl n s = Raised e s' ->
        e = step_error n
        /\ effects s' = effects s
        /\ worker s'
           = match n with
             | ActivateDevice =>
                 set_activation_state START_ACTIVATION (worker s)
             | _ => worker s
             end).
Proof.
  destruct s as [[esp cr c a d] l], fl as [f1 f2 f3 f4 f5 f6 f7 f8 f9].
  destruct n; cases; (split; [reflexivity |]); intros e s' H;
    try discriminate H; injection H as <- <-; repeat split.
Qed.

(** X2: the fields a step action leaves alone.  No step changes
    [esp_instance] or [cr_number]; only get-device-info changes [device];
    only implement-change, close-change and cancel-change change
    [change_state]; only check-module, the pre-checks and activate-device
    change [activation_state]. *)
Theorem step_frame fl n s :
  let w' := worker (final (bound_method fl n s)) in
  esp_instance w' = esp_instance (worker s)
  /\ cr_number w' = cr_number (worker s)
  /\ (if writes_device n then True else device w' = device (worker s))
  /\ (if writes_change_state n then True
      else change_state w' = change_state (worker s))
  /\ (if writes_activation_state n then True
      else activation_state w' = activation_state (worker s)).
Proof.
  destruct s as [[esp cr c a d] l], fl as [f1 f2 f3 f4 f5 f6 f7 f8 f9].
  destruct n; cases; repeat split.
Qed.

(** ** The incident reporter *)

(** X3: [create_incident] records a service-offering incident for an
    [ActivationError] and a software incident for anything else, leaving
    the worker as it was.  Only the service-offering path can fail: a
    software incident is recorded even with the incident fault injected. *)
Theorem create_incident_outcome fl error s :
  create_incident fl error s
  = if isinstance error ActivationError && _ERROR_ON_CREATE_INCIDENT fl
    then Raised CreateIncidentError s
    else Returned PySelf (after s [incident_for error]).
Proof.
  destruct s as [w l], fl as [f1 f2 f3 f4 f5 f6 f7 f8 f9].
  destruct error; cases; reflexivity.
Qed.

(** ** The recovery dispatcher, branch by branch *)

(** [handle_error] only adds effects, among them at most one incident and
    at most one sleep. *)
Lemma handle_error_adds_bounded fl error s :
  exists evs,
    effects (final (handle_error fl error s)) = effects s ++ evs
    /\ length (incidents evs) <= 1
    /\ length (sleeps evs) <= 1.
Proof.
  destruct s as [[esp cr c a d] l], fl as [f1 f2 f3 f4 f5 f6 f7 f8 f9].
  destruct error; cases; added; split; cbv; lia.
Qed.

(** X4: [handle_error] only appends to the effects, and what it appends
    holds at most one incident, the one [create_incident] records for the
    error it was given, and exactly one sleep of 3 when the error is a
    [CloseChangeError] or an [UploadArtifactsError] and the incident fault
    is not injected, none otherwise. *)
Theorem handle_error_incident_and_backoff fl error s :
  exists evs,
    effects (final (handle_error fl error s)) = effects s ++ evs
    /\ (incidents evs = [] \/ incidents evs = [incident_for error])
    /\ sleeps evs
       = if backs_off error && negb (_ERROR_ON_CREATE_INCIDENT fl)
         then [Sleep 3] else [].
Proof.
  destruct s as [[esp cr c a d] l], fl as [f1 f2 f3 f4 f5 f6 f7 f8 f9].
  destruct error; cases; added;
    (split; [first [left; reflexivity | right; reflexivity] | reflexivity]).
Qed.

(** X5: [handle_error] never changes [esp_instance], [cr_number], [device]
    or [activation_state], and it leaves [change_state] as it was or sets
    it to [CLOSED] or [CANCELLED]. *)
Theorem handle_error_frame fl error s :
  let w' := worker (final (handle_error fl error s)) in
  esp_instance w' = esp_instance (worker s)
  /\ cr_number w' = cr_number (worker s)
  /\ device w' = device (worker s)
  /\ activation_state w' = activation_state (worker s)
  /\ (change_state w' = change_state (worker s)
      \/ change_state w' = CLOSED
      \/ change_state w' = CANCELLED).
Proof.
  destruct s as [[esp cr c a d] l], fl as [f1 f2 f3 f4 f5 f6 f7 f8 f9].
  destruct error; cases; repeat split;
    first [left; reflexivity | right; left; reflexivity
          | right; right; reflexivity].
Qed.

(** X6: whatever the error and the faults, [handle_error] closes a change
    only if the activation has completed. *)
Theorem handle_error_closes_only_completed fl error s :
  change_state (worker (final (handle_error fl error s))) = CLOSED ->
  change_state (worker s) = CLOSED
  \/ activation_state (worker s) = ACTIVATION_COMPLETED.
Proof.
  destruct s as [[esp cr c a d] l], fl as [f1 f2 f3 f4 f5 f6 f7 f8 f9].
  destruct error; cases; intros H;
    first [discriminate H | right; reflexivity | left; exact H].
Qed.

(** [PreCheckError] on a worker whose activation has completed. *)
Lemma handle_error_closes_only_completed_witness :
  change_state (worker (final (handle_error no_faults PreCheckError
                                 (mkWorld (activated "cisco" "CHG1234") []))))
  = CLOSED
  /\ (change_state (worker (mkWorld (activated "cisco" "CHG1234") [])) = CLOSED
      \/ activation_state (worker (mkWorld (activated "cisco" "CHG1234") []))
         = ACTIVATION_COMPLETED).
Proof.
  assert (H : change_state (worker (final (handle_error no_faults PreCheckError
                (mkWorld (activated "cisco" "CHG1234") [])))) = CLOSED)
    by reflexivity.
  split; [exact H |].
  exact (handle_error_closes_only_completed no_faults PreCheckError
           (mkWorld (activated "cisco" "CHG1234") []) H).
Defined.

(** X7: [handle_error] cancels a change only for a [GetDeviceError] or a
    [CheckModuleError] that finds the change not in [IMPLEMENT]. *)
Theorem handle_error_cancels_only_before_implement fl error s :
  change_state (worker (final (handle_error fl error s))) = CANCELLED ->
  change_state (worker s) = CANCELLED
  \/ (In error [GetDeviceError; CheckModuleError]
      /\ change_state (worker s) <> IMPLEMENT).
Proof.
  destruct s as [[esp cr c a d] l], fl as [f1 f2 f3 f4 f5 f6 f7 f8 f9].
  destruct error; cases; intros H;
    first [discriminate H | left; exact H
          | right; split; [simpl; tauto | discriminate]].
Qed.

(** [CheckModuleError] on a fresh worker. *)
Lemma handle_error_cancels_only_before_implement_witness :
  change_state (worker (final (handle_error no_faults CheckModuleError
                                 (mkWorld (init "cisco" "CHG1234") []))))
  = CANCELLED
  /\ (change_state (worker (mkWorld (init "cisco" "CHG1234") [])) = CANCELLED
      \/ (In CheckModuleError [GetDeviceError; CheckModuleError]
          /\ change_state (worker (mkWorld (init "cisco" "CHG1234") []))
             <> IMPLEMENT)).
Proof.
  assert (H : change_state (worker (final (handle_error no_faults
                CheckModuleError (mkWorld (init "cisco" "CHG1234") []))))
              = CANCELLED) by reflexivity.
  split; [exact H |].
  exact (handle_error_cancels_only_before_implement no_faults CheckModuleError
           (mkWorld (init "cisco" "CHG1234") []) H).
Defined.

(** X8: the failures that leave [handle_error] are [CreateIncidentError],
    [CancelChangeError], [CloseChangeError], [UploadArtifactsError] and
    [AttributeError]; none of the five other classes does.
    [CreateIncidentError] leaves it only from its first line, with the
    incident fault injected and nothing done. *)
Theorem handle_error_escapes fl error s e s' :
  handle_error fl error s = Raised e s' ->
  escapes_handle_error e = true
  /\ (e = CreateIncidentError ->
      _ERROR_ON_CREATE_INCIDENT fl = true /\ s' = s).
Proof.
  intros H.
  assert (G : match handle_error fl error s with
              | Returned _ _ => True
              | Raised e s' =>
                  escapes_handle_error e = true
                  /\ (e = CreateIncidentError ->
                      _ERROR_ON_CREATE_INCIDENT fl = true /\ s' = s)
              end).
  { clear H.
    destruct s as [[esp cr c a d] l], fl as [f1 f2 f3 f4 f5 f6 f7 f8 f9].
    destruct error; cases; try exact I; (split; [reflexivity |]); intros He;
      first [discriminate He | split; reflexivity]. }
  rewrite H in G. exact G.
Qed.

(** An [UploadArtifactsError] whose retry fails again. *)
Lemma handle_error_escapes_witness :
  let fl := mkFlags false false false false false false true false false in
  let s := mkWorld (activated "cisco" "CHG1234") [] in
  handle_error fl UploadArtifactsError s
  = Raised UploadArtifactsError
      (after s [Info "handling upload artifact error" []; Sleep 3])
  /\ escapes_handle_error UploadArtifactsError = true.
Proof.
  intros fl s.
  assert (H : handle_error fl UploadArtifactsError s
              = Raised UploadArtifactsError
                  (after s [Info "handling upload artifact error" [];
                            Sleep 3])) by reflexivity.
  split; [exact H |].
  exact (proj1 (handle_error_escapes fl UploadArtifactsError s _ _ H)).
Defined.

(** X9: for a [GetDeviceError] or a [CheckModuleError], the change state
    [handle_error] leaves: untouched with the incident fault injected; from
    [IMPLEMENT], closed when the close fault is not injected and the
    activation has completed, left in [IMPLEMENT] otherwise, never
    cancelled; from any other state, cancelled unless the cancel fault is
    injected. *)
Theorem handle_error_cancel_or_close fl error s :
  In error [GetDeviceError; CheckModuleError] ->
  change_state (worker (final (handle_error fl error s)))
  = if _ERROR_ON_CREATE_INCIDENT fl then change_state (worker s)
    else if bool_decide (change_state (worker s) = IMPLEMENT) then
      if negb (_ERROR_ON_CLOSE_CHANGE fl)
         && bool_decide (activation_state (worker s) = ACTIVATION_COMPLETED)
      then CLOSED else IMPLEMENT
    else
      if _ERROR_ON_CANCEL_CHANGE fl then change_state (worker s)
      else CANCELLED.
Proof.
  intros He.
  destruct s as [[esp cr c a d] l], fl as [f1 f2 f3 f4 f5 f6 f7 f8 f9].
  destruct He as [<- | [<- | []]]; cases; reflexivity.
Qed.

(** [GetDeviceError] on a worker whose change is implemented and whose
    activation has completed. *)
Lemma handle_error_cancel_or_close_witness :
  In GetDeviceError [GetDeviceError; CheckModuleError]
  /\ change_state (worker (final (handle_error no_faults GetDeviceError
                                    (mkWorld (activated "cisco" "CHG1234") []))))
     = CLOSED.
Proof.
  assert (H : In GetDeviceError [GetDeviceError; CheckModuleError])
    by (left; reflexivity).
  split; [exact H |].
  exact (handle_error_cancel_or_close no_faults GetDeviceError
           (mkWorld (activated "cisco" "CHG1234") []) H).
Defined.

(** X10: when a [GetDeviceError] or a [CheckModuleError] finds the change
    not in [IMPLEMENT], and no fault is injected on cancel-change,
    upload-artifacts or incident creation, recovery is cancel-change, then
    upload-artifacts, then one software incident for the error, and the
    change ends cancelled, whatever the worker's state was otherwise. *)
Theorem handle_error_cancel_branch fl error s :
  In error [GetDeviceError; CheckModuleError] ->
  change_state (worker s) <> IMPLEMENT ->
  _ERROR_ON_CANCEL_CHANGE fl = false ->
  _ERROR_ON_UPLOAD_ARTIFACTS fl = false ->
  _ERROR_ON_CREATE_INCIDENT fl = false ->
  handle_error fl error s
  = (cancel_change fl .> upload_artifacts fl .> create_incident fl error)
      (after s [Info (handling_message error) []])
  /\ handle_error fl error s
     = Returned PySelf
         (mkWorld (set_change_state CANCELLED (worker s))
            (effects s ++ [Info (handling_message error) [];
                           Info "change closed successfully" [];
                           Info "uploaded artifacts" [];
                           software_incident error])).
Proof.
  intros He Hc Hcancel Hupload Hincident.
  destruct s as [[esp cr c a d] l], fl as [f1 f2 f3 f4 f5 f6 f7 f8 f9].
  simpl in Hc, Hcancel, Hupload, Hincident. subst f7 f8 f9.
  destruct He as [<- | [<- | []]];
    destruct c; try (exfalso; apply Hc; reflexivity);
    evaluate; rewrite <- ?app_assoc; split; reflexivity.
Qed.

(** [GetDeviceError] on a fresh worker, with no fault. *)
Lemma handle_error_cancel_branch_witness :
  handle_error no_faults GetDeviceError (mkWorld (init "cisco" "CHG1234") [])
  = Returned PySelf
      (mkWorld (set_change_state CANCELLED (init "cisco" "CHG1234"))
         [Info "handling get device error" [];
          Info "change closed successfully" [];
          Info "uploaded artifacts" [];
          software_incident GetDeviceError]).
Proof.
  apply (handle_error_cancel_branch no_faults GetDeviceError
           (mkWorld (init "cisco" "CHG1234") [])).
  - left. reflexivity.
  - discriminate.
  - reflexivity.
  - reflexivity.
  - reflexivity.
Defined.

(** X11: the cancel branch has no guard.  When cancel-change fails there,
    [CancelChangeError] leaves [handle_error] with the worker as it was;
    when cancel-change succeeds and upload-artifacts fails,
    [UploadArtifactsError] leaves it with the change cancelled.  Either way
    no incident is recorded. *)
Theorem handle_error_cancel_branch_unguarded fl error s :
  In error [GetDeviceError; CheckModuleError] ->
  change_state (worker s) <> IMPLEMENT ->
  _ERROR_ON_CREATE_INCIDENT fl = false ->
  _ERROR_ON_CANCEL_CHANGE fl || _ERROR_ON_UPLOAD_ARTIFACTS fl = true ->
  handle_error fl error s
  = if _ERROR_ON_CANCEL_CHANGE fl
    then Raised CancelChangeError
           (after s [Info (handling_message error) []])
    else Raised UploadArtifactsError
           (mkWorld (set_change_state CANCELLED (worker s))
              (effects s ++ [Info (handling_message error) [];
                             Info "change closed successfully" []])).
Proof.
  intros He Hc Hincident Hfault.
  destruct s as [[esp cr c a d] l], fl as [f1 f2 f3 f4 f5 f6 f7 f8 f9].
  simpl in Hc, Hincident, Hfault. subst f8.
  destruct He as [<- | [<- | []]];
    destruct c; try (exfalso; apply Hc; reflexivity);
    destruct f9, f7; try discriminate Hfault;
    evaluate; rewrite <- ?app_assoc; reflexivity.
Qed.

(** [CheckModuleError] on a fresh worker, with the cancel fault injected. *)
Lemma handle_error_cancel_branch_unguarded_witness :
  let fl := mkFlags false false false false false false false false true in
  handle_error fl CheckModuleError (mkWorld (init "cisco" "CHG1234") [])
  = Raised CancelChangeError
      (mkWorld (init "cisco" "CHG1234")
               [Info "handling check module error" []]).
Proof.
  intros fl.
  apply (handle_error_cancel_branch_unguarded fl CheckModuleError
           (mkWorld (init "cisco" "CHG1234") [])).
  - right. left. reflexivity.
  - discriminate.
  - reflexivity.
  - reflexivity.
Defined.

(** X12: unless the incident fault is injected, an [UploadArtifactsError]
    makes [handle_error] sleep once, for 3, and call upload-artifacts once
    more: when that call succeeds [handle_error] returns, when it fails
    [UploadArtifactsError] leaves [handle_error].  The worker is as it was
    and no incident is recorded in either case. *)
Theorem handle_upload_artifacts_error fl s :
  _ERROR_ON_CREATE_INCIDENT fl = false ->
  handle_error fl UploadArtifactsError s
  = if _ERROR_ON_UPLOAD_ARTIFACTS fl
    then Raised UploadArtifactsError
           (after s [Info "handling upload artifact error" []; Sleep 3])
    else Returned PySelf
           (after s [Info "handling upload artifact error" []; Sleep 3;
                     Info "uploaded artifacts" []]).
Proof.
  intros Hincident.
  destruct s as [w l], fl as [f1 f2 f3 f4 f5 f6 f7 f8 f9].
  simpl in Hincident. subst f8.
  destruct f7; evaluate; rewrite <- ?app_assoc; reflexivity.
Qed.

(** On a closed change, with no fault. *)
Lemma handle_upload_artifacts_error_witness :
  handle_error no_faults UploadArtifactsError
    (mkWorld (set_change_state CLOSED (activated "cisco" "CHG1234")) [])
  = Returned PySelf
      (mkWorld (set_change_state CLOSED (activated "cisco" "CHG1234"))
         [Info "handling upload artifact error" []; Sleep 3;
          Info "uploaded artifacts" []]).
Proof.
  apply (handle_upload_artifacts_error no_faults
           (mkWorld (set_change_state CLOSED (activated "cisco" "CHG1234")) [])).
  reflexivity.
Defined.

(** ** The sequencer on any list of steps *)

Lemma for_each_after_prefix pre rest s s1 :
  runs_to pre s s1 ->
  for_each (pre ++ rest) s = for_each rest s1.
Proof.
  induction 1 as [s | step pre r s sa sb Hstep _ IH]; [reflexivity |].
  simpl app. rewrite for_each_cons, (bind_returned _ _ _ _ _ Hstep).
  exact IH.
Qed.

Lemma run_activation_propagates fl steps e s s' :
  for_each steps s = Raised e s' ->
  existsb (isinstance e) run_activation_catches = false ->
  run_activation fl steps s = Raised e s'.
Proof.
  intros H Hc. unfold run_activation, try_except. rewrite H, Hc. reflexivity.
Qed.

(** X13: [run_activation] on the empty list returns at once, and a prefix
    of steps that all return can be run first: the run of the whole list is
    the run of the rest from the world the prefix left. *)
Theorem run_activation_after_prefix fl (pre rest : list (M pyref)) s s1 :
  runs_to pre s s1 ->
  run_activation fl [] s = Returned tt s
  /\ run_activation fl (pre ++ rest) s = run_activation fl rest s1.
Proof.
  intros Hpre. split; [reflexivity |].
  unfold run_activation, try_except.
  rewrite (for_each_after_prefix _ rest _ _ Hpre). reflexivity.
Qed.

(** The first five steps of [main], with no fault, before the last two. *)
Lemma run_activation_after_prefix_witness :
  let fl := no_faults in
  let pre := [get_device_info fl; check_module fl; implement_change fl;
              activation_pre_checks fl; activate_device fl] in
  let s := mkWorld (init "cisco" "CHG1234") [] in
  runs_to pre s (final (for_each pre s))
  /\ run_activation fl (pre ++ [close_change fl; upload_artifacts fl]) s
     = run_activation fl [close_change fl; upload_artifacts fl]
         (final (for_each pre s)).
Proof.
  intros fl pre s.
  assert (Hpre : runs_to pre s (final (for_each pre s))).
  { apply for_each_runs_to. reflexivity. }
  split; [exact Hpre |].
  exact (proj2 (run_activation_after_prefix fl pre
                  [close_change fl; upload_artifacts fl] s _ Hpre)).
Defined.

(** X14: a failure of a class that the [except] clause does not name, such
    as [CreateIncidentError] or [AttributeError], raised by a step, leaves
    [run_activation] as it is, from the world the step left: the steps
    after it do not run and [handle_error] is not called. *)
Theorem run_activation_uncaught
    fl (pre post : list (M pyref)) (step : M pyref) e s s1 s2 :
  runs_to pre s s1 ->
  step s1 = Raised e s2 ->
  ~ In e run_activation_catches ->
  run_activation fl (pre ++ step :: post) s = Raised e s2.
Proof.
  intros Hpre Hstep Hnot.
  apply run_activation_propagates.
  - apply (for_each_first_failure _ _ _ _ _ _ _ Hpre Hstep).
  - destruct e; try reflexivity; exfalso; apply Hnot; simpl; tauto.
Qed.

(** A step that creates a service-offering incident, with the incident
    fault injected, after get-device-info. *)
Lemma run_activation_uncaught_witness :
  let fl := fault_on_create_incident in
  let s := mkWorld (init "cisco" "CHG1234") [] in
  run_activation fl
    ([get_device_info fl] ++ create_incident fl ActivationError
       :: [upload_artifacts fl]) s
  = Raised CreateIncidentError (final (get_device_info fl s)).
Proof.
  intros fl s.
  apply (run_activation_uncaught fl [get_device_info fl] [upload_artifacts fl]
           (create_incident fl ActivationError) CreateIncidentError s
           (final (get_device_info fl s))).
  - econstructor; [reflexivity | constructor].
  - reflexivity.
  - simpl. intros [H | [H | [H | [H | [H | [H | [H | [H | []]]]]]]]];
      discriminate H.
Defined.

(** ** The sequencer on the worker's step actions *)

Lemma step_adds fl n s :
  exists evs,
    effects (final (bound_method fl n s)) = effects s ++ evs
    /\ incidents evs = [] /\ sleeps evs = [].
Proof.
  destruct s as [[esp cr c a d] l], fl as [f1 f2 f3 f4 f5 f6 f7 f8 f9].
  destruct n; cases; added; split; reflexivity.
Qed.

Lemma for_each_adds fl names s :
  exists evs,
    effects (final (for_each (map (bound_method fl) names) s))
    = effects s ++ evs
    /\ incidents evs = [] /\ sleeps evs = [].
Proof.
  revert s. induction names as [| n names IH]; intros s.
  - exists []. rewrite app_nil_r. repeat split.
  - simpl map. rewrite for_each_cons. unfold mbind, M_bind.
    destruct (step_adds fl n s) as (evs1 & H1 & Hi1 & Hs1).
    destruct (bound_method fl n s) as [r s1 | e s1]; simpl in H1.
    + destruct (IH s1) as (evs2 & H2 & Hi2 & Hs2).
      exists (evs1 ++ evs2). rewrite H2, H1, app_assoc.
      rewrite incidents_app, sleeps_app, Hi1, Hi2, Hs1, Hs2.
      repeat split.
    + exists evs1. simpl. auto.
Qed.

Lemma final_discard {A} (m : M A) s :
  final ((m ;; mret tt) s) = final (m s).
Proof. unfold mbind, M_bind. destruct (m s); reflexivity. Qed.

(** Where a run of step actions ends: as the loop ends, or as
    [handle_error] ends on the first failure. *)
Lemma run_activation_methods fl names s :
  match for_each (map (bound_method fl) names) s with
  | Returned _ s' =>
      run_activation fl (map (bound_method fl) names) s = Returned tt s'
  | Raised e s' =>
      run_activation fl (map (bound_method fl) names) s
      = (handle_error fl e ;; mret tt) s'
  end.
Proof.
  destruct (for_each (map (bound_method fl) names) s) as [[] s' | e s'] eqn:H.
  - apply run_activation_completes, H.
  - apply run_activation_dispatches; [exact H |].
    apply (for_each_methods_raise_caught _ _ _ _ _ H).
Qed.

(** X15: whatever the faults, a run of [run_activation] over step actions
    of the worker only appends to the effects, records at most one
    incident and sleeps at most once. *)
Theorem run_activation_one_incident_one_backoff
    fl (names : list step_name) s :
  exists evs,
    effects (final (run_activation fl (map (bound_method fl) names) s))
    = effects s ++ evs
    /\ length (incidents evs) <= 1
    /\ length (sleeps evs) <= 1.
Proof.
  pose proof (run_activation_methods fl names s) as Hrun.
  destruct (for_each_adds fl names s) as (evs1 & H1 & Hi1 & Hs1).
  destruct (for_each (map (bound_method fl) names) s) as [[] s' | e s'];
    simpl in H1; rewrite Hrun.
  - exists evs1. simpl. rewrite Hi1, Hs1.
    split; [exact H1 | split; simpl; lia].
  - rewrite final_discard.
    destruct (handle_error_adds_bounded fl e s') as (evs2 & H2 & Hi2 & Hs2).
    exists (evs1 ++ evs2). rewrite H2, H1, app_assoc.
    rewrite incidents_app, sleeps_app, Hi1, Hs1.
    split; [reflexivity | split; simpl; lia].
Qed.

(** The failures that leave [handle_error]. *)
Lemma handle_error_raises_escaping fl error s e s' :
  handle_error fl error s = Raised e s' -> escapes_handle_error e = true.
Proof.
  intros H.
  assert (G : match handle_error fl error s with
              | Returned _ _ => True
              | Raised e _ => escapes_handle_error e = true
              end).
  { clear H.
    destruct s as [[esp cr c a d] l], fl as [f1 f2 f3 f4 f5 f6 f7 f8 f9].
    destruct error; cases; first [exact I | reflexivity]. }
  rewrite H in G. exact G.
Qed.

(** X16: a run of [run_activation] over step actions of the worker never
    raises [GetDeviceError], [CheckModuleError], [ImplementChangeError],
    [PreCheckError] or [ActivationError] to its caller: what it raises is
    one of the failures that leave [handle_error]. *)
Theorem run_activation_escapes fl (names : list step_name) s e s' :
  run_activation fl (map (bound_method fl) names) s = Raised e s' ->
  escapes_handle_error e = true.
Proof.
  intros H. pose proof (run_activation_methods fl names s) as Hrun.
  destruct (for_each (map (bound_method fl) names) s) as [[] s1 | e1 s1].
  - rewrite Hrun in H. discriminate H.
  - rewrite Hrun in H. unfold mbind, M_bind in H.
    destruct (handle_error fl e1 s1) as [r s2 | e2 s2] eqn:Hh;
      [discriminate H |].
    injection H as <- _. apply (handle_error_raises_escaping _ _ _ _ _ Hh).
Qed.

(** The sequence of [main] with a fault on the pre-checks. *)
Lemma run_activation_escapes_witness :
  let fl := mkFlags false false false true false false false false false in
  let names := [GetDeviceInfo; CheckModule; ImplementChange;
                ActivationPreChecks; ActivateDevice; CloseChange;
                UploadArtifacts] in
  let s := mkWorld (init "cisco" "CHG1234") [] in
  returns (run_activation fl (map (bound_method fl) names) s) = false
  /\ escapes_handle_error AttributeError = true.
Proof.
  intros fl names s. split; [reflexivity |].
  apply (run_activation_escapes fl names s AttributeError
           (final (run_activation fl (map (bound_method fl) names) s))).
  reflexivity.
Defined.

(** ** What reaches the caller of [run_activation] *)

(** A step action raises its own class, and only with its fault injected. *)
Lemma bound_method_raises_own fl n s e s' :
  bound_method fl n s = Raised e s' ->
  e = step_error n /\ step_flag fl n = true.
Proof.
  intros H.
  assert (G : match bound_method fl n s with
              | Returned _ _ => True
              | Raised e _ => e = step_error n /\ step_flag fl n = true
              end).
  { clear H.
    destruct s as [[esp cr c a d] l], fl as [f1 f2 f3 f4 f5 f6 f7 f8 f9].
    destruct n; cases; first [exact I | split; reflexivity]. }
  rewrite H in G. exact G.
Qed.

Lemma for_each_methods_raise_own fl names s e s' :
  for_each (map (bound_method fl) names) s = Raised e s' ->
  exists n, e = step_error n /\ step_flag fl n = true.
Proof.
  revert s. induction names as [| n names IH]; intros s H.
  - discriminate H.
  - simpl map in H. rewrite for_each_cons in H. unfold mbind, M_bind in H.
    destruct (bound_method fl n s) as [r s1 | e1 s1] eqn:Hn.
    + apply (IH _ H).
    + injection H as -> ->. exists n.
      apply (bound_method_raises_own _ _ _ _ _ Hn).
Qed.

Lemma discard_returned {A} (m : M A) a s s1 :
  m s = Returned a s1 -> (m ;; mret tt) s = Returned tt s1.
Proof. intros H. unfold mbind, M_bind. rewrite H. reflexivity. Qed.

(** The errors [handle_error] returns on by falling through. *)
Lemma handle_error_returns_unmatched fl error s :
  _ERROR_ON_CREATE_INCIDENT fl = false ->
  In error [ImplementChangeError; CancelChangeError] ->
  handle_error fl error s = Returned PySelf s.
Proof.
  intros Hincident He.
  destruct s as [w l], fl as [f1 f2 f3 f4 f5 f6 f7 f8 f9].
  simpl in Hincident. subst f8.
  destruct He as [<- | [<- | []]]; reflexivity.
Qed.

(** The [CloseChangeError] whose retry fails again becomes an incident. *)
Lemma handle_error_close_fault_incident fl s :
  _ERROR_ON_CREATE_INCIDENT fl = false ->
  _ERROR_ON_CLOSE_CHANGE fl = true ->
  handle_error fl CloseChangeError s
  = Returned PySelf
      (after s [Info "handling close change error" []; Sleep 3;
                software_incident CloseChangeError]).
Proof.
  intros Hincident Hclose.
  destruct s as [w l], fl as [f1 f2 f3 f4 f5 f6 f7 f8 f9].
  simpl in Hincident, Hclose. subst f6 f8.
  evaluate. rewrite <- ?app_assoc. reflexivity.
Qed.

(** The cancel branch when cancel, upload and incident all succeed. *)
Lemma handle_error_returns_cancelled fl error s :
  _ERROR_ON_CREATE_INCIDENT fl = false ->
  _ERROR_ON_CANCEL_CHANGE fl = false ->
  _ERROR_ON_UPLOAD_ARTIFACTS fl = false ->
  In error [GetDeviceError; CheckModuleError] ->
  change_state (worker s) <> IMPLEMENT ->
  handle_error fl error s
  = Returned PySelf
      (mkWorld (set_change_state CANCELLED (worker s))
         (effects s ++ [Info (handling_message error) [];
                        Info "change closed successfully" [];
                        Info "uploaded artifacts" [];
                        software_incident error])).
Proof.
  intros Hincident Hcancel Hupload He Hc.
  destruct s as [[esp cr c a d] l], fl as [f1 f2 f3 f4 f5 f6 f7 f8 f9].
  simpl in Hincident, Hcancel, Hupload, Hc. subst f7 f8 f9.
  destruct He as [<- | [<- | []]];
    destruct c; try (exfalso; apply Hc; reflexivity);
    evaluate; rewrite <- ?app_assoc; reflexivity.
Qed.

(** C2, as the code has it.  Over step actions of the worker,
    [run_activation] returns when every step returns; otherwise the first
    failure is one the [except] clause catches, and [run_activation] ends
    as [handle_error] ends on it, in the world the failing step left.
    With the incident fault injected it then raises [CreateIncidentError].
    Without it, an [ImplementChangeError] or a [CancelChangeError] ends
    inside [handle_error] with nothing done, a [CloseChangeError] becomes
    one software incident after one sleep, and a [GetDeviceError] or
    [CheckModuleError] that finds the change not in [IMPLEMENT], with
    cancel-change and upload-artifacts not faulted, becomes one software
    incident on a cancelled change; in these cases [run_activation]
    returns.  Whatever it raises to its caller is raised by [handle_error]
    on that first failure and is one of [CreateIncidentError],
    [CancelChangeError], [CloseChangeError], [UploadArtifactsError] and
    [AttributeError]: never [GetDeviceError], [CheckModuleError],
    [ImplementChangeError], [PreCheckError] or [ActivationError]. *)
Theorem run_activation_outcome fl (names : list step_name) s :
  match for_each (map (bound_method fl) names) s with
  | Returned _ s' =>
      run_activation fl (map (bound_method fl) names) s = Returned tt s'
  | Raised e s' =>
      existsb (isinstance e) run_activation_catches = true
      /\ run_activation fl (map (bound_method fl) names) s
         = (handle_error fl e ;; mret tt) s'
      /\ (_ERROR_ON_CREATE_INCIDENT fl = true ->
          run_activation fl (map (bound_method fl) names) s
          = Raised CreateIncidentError s')
      /\ (_ERROR_ON_CREATE_INCIDENT fl = false ->
          In e [ImplementChangeError; CancelChangeError] ->
          run_activation fl (map (bound_method fl) names) s = Returned tt s')
      /\ (_ERROR_ON_CREATE_INCIDENT fl = false ->
          e = CloseChangeError ->
          run_activation fl (map (bound_method fl) names) s
          = Returned tt
              (after s' [Info "handling close change error" []; Sleep 3;
                         software_incident CloseChangeError]))
      /\ (_ERROR_ON_CREATE_INCIDENT fl = false ->
          _ERROR_ON_CANCEL_CHANGE fl = false ->
          _ERROR_ON_UPLOAD_ARTIFACTS fl = false ->
          In e [GetDeviceError; CheckModuleError] ->
          change_state (worker s') <> IMPLEMENT ->
          run_activation fl (map (bound_method fl) names) s
          = Returned tt
              (mkWorld (set_change_state CANCELLED (worker s'))
                 (effects s' ++ [Info (handling_message e) [];
                                 Info "change closed successfully" [];
                                 Info "uploaded artifacts" [];
                                 software_incident e])))
  end
  /\ (forall e s',
        run_activation fl (map (bound_method fl) names) s = Raised e s' ->
        escapes_handle_error e = true
        /\ exists error s1,
             for_each (map (bound_method fl) names) s = Raised error s1
             /\ handle_error fl error s1 = Raised e s').
Proof.
  pose proof (run_activation_methods fl names s) as Hrun.
  destruct (for_each (map (bound_method fl) names) s) as [[] s1 | e1 s1] eqn:H.
  - split; [exact Hrun |]. intros e s' Hr. rewrite Hrun in Hr. discriminate Hr.
  - pose proof (for_each_methods_raise_caught _ _ _ _ _ H) as Hc.
    destruct (for_each_methods_raise_own _ _ _ _ _ H) as (n & Hn & Hflag).
    split;
      [split; [exact Hc | split; [exact Hrun | split; [| split; [| split]]]] |].
    + intros Hincident. rewrite Hrun.
      apply bind_raised, handle_error_incident_fault, Hincident.
    + intros Hincident He. rewrite Hrun.
      apply (discard_returned _ PySelf),
        handle_error_returns_unmatched; assumption.
    + intros Hincident ->. rewrite Hrun.
      apply (discard_returned _ PySelf), handle_error_close_fault_incident;
        [exact Hincident |].
      destruct n; try discriminate Hn. exact Hflag.
    + intros Hincident Hcancel Hupload He Hstate. rewrite Hrun.
      apply (discard_returned _ PySelf),
        handle_error_returns_cancelled; assumption.
    + intros e s' Hr. rewrite Hrun in Hr. unfold mbind, M_bind in Hr.
      destruct (handle_error fl e1 s1) as [r s2 | e2 s2] eqn:Hh;
        [discriminate Hr |].
      injection Hr as <- <-.
      split; [apply (handle_error_raises_escaping _ _ _ _ _ Hh) |].
      exists e1, s1. split; [reflexivity | exact Hh].
Qed.

(** The sequence of [main] with the fault on close-change: the
    [CloseChangeError] of the sixth step becomes one software incident. *)
Lemma run_activation_outcome_witness :
  let fl := fault_on_close_change in
  let names := [GetDeviceInfo; CheckModule; ImplementChange;
                ActivationPreChecks; ActivateDevice; CloseChange;
                UploadArtifacts] in
  let s := mkWorld (init "cisco" "CHG1234") [] in
  _ERROR_ON_CREATE_INCIDENT fl = false
  /\ returns (run_activation fl (map (bound_method fl) names) s) = true
  /\ incidents (effects (final
        (run_activation fl (map (bound_method fl) names) s)))
     = [software_incident CloseChangeError].
Proof.
  intros fl names s.
  pose proof (run_activation_outcome fl names s) as [H _].
  assert (Hf : for_each (map (bound_method fl) names) s
               = Raised CloseChangeError
                   (final (for_each (map (bound_method fl) names) s)))
    by reflexivity.
  rewrite Hf in H. destruct H as (_ & _ & _ & _ & Hclose & _).
  split; [reflexivity |].
  rewrite (Hclose eq_refl eq_refl). split; reflexivity.
Defined.

(** C2 fails as stated: with faults injected on get-device-info and on
    incident creation, [run_activation] raises [CreateIncidentError] to its
    caller. *)
Lemma run_activation_reraises :
  main fault_on_get_device_and_create_incident
  = Raised CreateIncidentError (mkWorld (init "cisco" "CHG1234") []).
Proof. reflexivity. Qed.

(** ** The run of [main] under every fault setting *)

(** X17: the run of [main]'s steps on a fresh worker returns exactly under
    the fault settings of [main_returns]; under every other setting a
    failure reaches the caller. *)
Theorem run_main_returns fl esp cr :
  returns (run_main fl esp cr) = main_returns fl.
Proof. destruct fl as [[] [] [] [] [] [] [] [] []]; reflexivity. Qed.

(** X18: the change state in which the run of [main]'s steps leaves a fresh
    worker is the one of [main_change_state]: [CLOSED] only when none of
    the first six steps is faulted, [CANCELLED] only after a fault on
    get-device-info or check-module with cancel-change and [handle_error]
    not faulted, and otherwise the state in which the failure found it. *)
Theorem run_main_change_state fl esp cr :
  change_state (worker (final (run_main fl esp cr))) = main_change_state fl.
Proof. destruct fl as [[] [] [] [] [] [] [] [] []]; reflexivity. Qed.

(** X19: under no fault setting does the run of [main]'s steps record a
    service-offering incident. *)
Theorem run_main_no_service_offering_incident fl esp cr :
  List.filter is_service_offering (effects (final (run_main fl esp cr))) = [].
Proof. destruct fl as [[] [] [] [] [] [] [] [] []]; reflexivity. Qed.

(** X20: when the first three steps of [main] are not faulted and the
    pre-checks or activate-device are, the run is never recovered: it
    raises [CreateIncidentError] with the incident fault injected,
    otherwise [CloseChangeError] with the close fault injected, otherwise
    [AttributeError]; nothing is uploaded and no incident is recorded. *)
Theorem run_main_activation_unrecovered fl esp cr :
  _ERROR_ON_GET_DEVICE fl = false ->
  _ERROR_ON_CHECK_MODULE fl = false ->
  _ERROR_ON_IMPLEMENT_CHANGE fl = false ->
  _ERROR_ON_PRE_CHECKS fl || _ERROR_ON_ACTIVATION fl = true ->
  (exists s',
     run_main fl esp cr
     = Raised (if _ERROR_ON_CREATE_INCIDENT fl then CreateIncidentError
               else if _ERROR_ON_CLOSE_CHANGE fl then CloseChangeError
               else AttributeError) s')
  /\ uploads (effects (final (run_main fl esp cr))) = []
  /\ incidents (effects (final (run_main fl esp cr))) = [].
Proof.
  destruct fl as [f1 f2 f3 f4 f5 f6 f7 f8 f9]. simpl.
  intros -> -> -> H.
  destruct f4, f5; try discriminate H; destruct f6, f7, f8, f9;
    (split; [eexists; reflexivity | split; reflexivity]).
Qed.

(** The fault on activate-device alone. *)
Lemma run_main_activation_unrecovered_witness :
  (exists s', run_main fault_on_activation "cisco" "CHG1234"
              = Raised AttributeError s')
  /\ incidents (effects (final (run_main fault_on_activation
                                  "cisco" "CHG1234"))) = [].
Proof.
  destruct (run_main_activation_unrecovered fault_on_activation
              "cisco" "CHG1234") as (Hraised & _ & Hincidents);
    [reflexivity | reflexivity | reflexivity | reflexivity |].
  split; [exact Hraised | exact Hincidents].
Defined.

(** X23: with no fault injected, the sequence of [main] runs to completion
    from any state of the worker, not only a fresh one: whatever
    [change_state] and [activation_state] were, also [CLOSED] or
    [CANCELLED], the change ends closed and the activation completed, the
    device is the one get-device-info sets, and the seven steps have logged
    one record each. *)
Theorem run_main_steps_from_any_state s :
  run_activation no_faults (main_steps no_faults) s
  = Returned tt
      (mkWorld
         (mkWorker (esp_instance (worker s)) (cr_number (worker s))
            CLOSED ACTIVATION_COMPLETED
            (Some (mkDevice "switch-1.cisco.com" "switch-1")))
         (effects s
          ++ [Info "got device info." [];
              Info "ran check module." [];
              Info "implemented change request." [];
              Info "ran pre checks on device: %s."
                [ArgDevice (Some (mkDevice "switch-1.cisco.com" "switch-1"))];
              Info "activated device: %s."
                [ArgDevice (Some (mkDevice "switch-1.cisco.com" "switch-1"))];
              Info "change closed successfully" [];
              Info "uploaded artifacts" []])).
Proof.
  destruct s as [[esp cr c a d] l].
  evaluate. rewrite <- ?app_assoc. reflexivity.
Qed.

(** ** The flags read from the environment *)

(** A flag is true exactly when its variable is set to a string that is
    not empty. *)
Lemma environ_get_true_iff (environ : gmap string string) key :
  environ_get environ key = true
  <-> exists v, environ !! key = Some v /\ v <> EmptyString.
Proof.
  unfold environ_get. destruct (environ !! key) as [v |].
  - rewrite negb_true_iff, String.eqb_neq. split.
    + intros Hv. exists v. split; [reflexivity | exact Hv].
    + intros (v' & Hv' & Hne). injection Hv' as ->. exact Hne.
  - split; [discriminate | intros (v & Hv & _); discriminate Hv].
Qed.

(** X22: the flags depend on the nine variables [ERROR_ON_...] only:
    setting any other variable of the environment leaves them all as they
    were. *)
Theorem load_flags_other_variable (environ : gmap string string) key v :
  ~ In key flag_variables ->
  load_flags (<[key := v]> environ) = load_flags environ.
Proof.
  intros Hkey. unfold load_flags, environ_get.
  rewrite !lookup_insert_ne; [reflexivity | ..];
    intros ->; apply Hkey; simpl; tauto.
Qed.

(** Setting [PATH] in an environment that injects the close fault. *)
Lemma load_flags_other_variable_witness :
  load_flags (<["PATH" := "/usr/bin"]> {["ERROR_ON_CLOSE_CHANGE" := "1"]})
  = load_flags {["ERROR_ON_CLOSE_CHANGE" := "1"]}.
Proof.
  apply (load_flags_other_variable {["ERROR_ON_CLOSE_CHANGE" := "1"]}
           "PATH" "/usr/bin").
  simpl. intros [H | [H | [H | [H | [H | [H | [H | [H | [H | []]]]]]]]]];
    discriminate H.
Defined.
